(** * AI calling agent (main_llama.py): session store and webhook handlers

    A shallow embedding of [src/main_llama.py].  The process-wide dictionary
    [conversation_sessions] and the requests sent to the two providers are
    threaded through a state-and-exception monad; the providers themselves
    (Together chat completions, Twilio call origination) are oracles.

    Standard output is taken to be UTF-8, so a [print] fails exactly on a
    string holding a surrogate code point.  The [print] of the reply at the
    end of the voice handler and the one in [load_prompt] are modelled.  The
    others write source literals, form fields (which the framework
    percent-decodes with replacement, so they hold no surrogate), call
    identifiers and exception descriptions; these are taken to be encodable
    and the calls are left out. *)

From Stdlib Require Import NArith ZArith QArith Ascii String.
From stdpp Require Import gmap list fin_maps strings.

Set Default Proof Using "Type".
Local Open Scope N_scope.

(** ** Python values *)

(** A Python [str] is a sequence of Unicode code points. *)
Abbreviation pystr := (list N).

(** Source-code string literals (all of them ASCII). *)
Definition lit (s : string) : pystr :=
  (λ a, N_of_ascii a) <$> list_ascii_of_string s.

(** Truth value of a [str] in [if s:] / [if not s:]. *)
Definition truthy (s : pystr) : bool :=
  match s with
  | [] => false
  | _ :: _ => true
  end.

(** [str(x)] in an f-string where [x] is [os.getenv(...)]: a [str] or [None]. *)
Definition str_of_optional (x : option pystr) : pystr :=
  match x with
  | Some s => s
  | None => lit "None"
  end.

(** What [print] can write to a UTF-8 standard output: any string without a
    surrogate code point (U+D800 to U+DFFF); on any other string it raises
    [UnicodeEncodeError]. *)
Definition is_surrogate (c : N) : bool := (55296 <=? c) && (c <=? 57343).

Definition stdout_encodable (s : pystr) : bool :=
  forallb (λ c, negb (is_surrogate c)) s.

(** Whitespace as [str.strip()] with no argument sees it (CPython's
    [Py_UNICODE_ISSPACE]). *)
Definition py_isspace (c : N) : bool :=
  (9 <=? c) && (c <=? 13)
  || (28 <=? c) && (c <=? 32)
  || (c =? 133) || (c =? 160) || (c =? 5760)
  || (8192 <=? c) && (c <=? 8202)
  || (c =? 8232) || (c =? 8233) || (c =? 8239) || (c =? 8287)
  || (c =? 12288).

Fixpoint lstrip (s : pystr) : pystr :=
  match s with
  | [] => []
  | c :: s' => if py_isspace c then lstrip s' else s
  end.

Definition rstrip (s : pystr) : pystr := reverse (lstrip (reverse s)).

(** [s.strip()] *)
Definition strip (s : pystr) : pystr := rstrip (lstrip s).

(** ** Data model *)

(** One transcript entry, [{"role": ..., "content": ...}]. *)
Record Message := mkMessage { role : pystr; content : pystr }.

(** A session record, [{"conversation_history": [...]}]. *)
Record Session := mkSession { conversation_history : list Message }.

(** Webhook form fields as read through [form_data.get]. *)
Abbreviation FormData := (gmap pystr pystr).

(** [CallSid] as the handlers hold it: [form_data.get("CallSid")] is a
    [str], or [None] when the field is absent. *)
Abbreviation CallSid := (option pystr).

(** JSON bodies returned by the JSON endpoints (insertion-ordered dicts). *)
Inductive JsonValue := JNull | JStr (s : pystr).
Abbreviation JsonObject := (list (pystr * JsonValue)).

Definition json_of_optional (x : option pystr) : JsonValue :=
  match x with
  | Some s => JStr s
  | None => JNull
  end.

(** *** Together chat-completion request and response *)

Record ChatRequest := mkChatRequest {
  model : pystr;
  messages : list Message;
  max_tokens : Z;
  temperature : Q;
  top_p : Q;
  top_k : Z;
  repetition_penalty : Q
}.

Record ChatMessage := mkChatMessage { msg_content : option pystr }.
Record Choice := mkChoice { message : option ChatMessage }.
Record ChatCompletion := mkChatCompletion { choices : option (list Choice) }.

(** *** Twilio call origination request and response *)

Record CallCreate := mkCallCreate {
  account_sid : option pystr;
  auth_token : option pystr;
  url : pystr;
  to : pystr;
  from_ : option pystr;
  record : bool;
  recording_status_callback : pystr;
  recording_status_callback_method : pystr
}.

Record CallInstance := mkCallInstance { sid : option pystr }.

(** *** Voice-response markup (TwiML), kept as a tree; [str(response)] is the
    provider library's XML rendering of it. *)

Record Say := mkSay { say_text : pystr; say_voice : option pystr }.

Record Gather := mkGather {
  gather_input : pystr;
  gather_action : pystr;
  gather_method : pystr;
  gather_enhanced : bool;
  gather_speech_model : pystr;
  gather_speech_timeout : pystr;
  gather_timeout : Z;
  gather_nested : list Say
}.

Inductive Verb := VGather (g : Gather) | VSay (s : Say).

Record VoiceResponse := mkVoiceResponse { verbs : list Verb }.

Record Response := mkResponse { body : VoiceResponse; media_type : pystr }.

(** The utterance the caller hears first: the text said inside the gather. *)
Definition spoken (r : Response) : list pystr :=
  match verbs (body r) with
  | VGather g :: _ => say_text <$> gather_nested g
  | _ => []
  end.

(** ** Exceptions and the handler monad *)

(** Exceptions (all subclasses of [Exception]) that the modelled code or a
    provider client can raise. *)
Inductive exn :=
  | KeyError (key : CallSid)
  | TypeError
  | IndexError
  | AttributeError
  | UnicodeEncodeError
  | ProviderError (description : pystr).

(** What a provider client call does: returns a value or raises. *)
Inductive ApiResult (A : Type) :=
  | ApiOk (a : A)
  | ApiRaise (e : exn).
Arguments ApiOk {A} a.
Arguments ApiRaise {A} e.

(** Process state: the session store plus, for each provider, the calls made
    so far to its client method, one entry per call and most recent last.
    An entry records the arguments of the call; how many HTTP requests the
    client library puts on the wire for one call (it may retry) is not
    modelled. *)
Record World := mkWorld {
  conversation_sessions : gmap CallSid Session;
  together_requests : list ChatRequest;
  twilio_requests : list CallCreate
}.

Definition with_sessions (f : gmap CallSid Session → gmap CallSid Session)
    (w : World) : World :=
  {| conversation_sessions := f (conversation_sessions w);
     together_requests := together_requests w;
     twilio_requests := twilio_requests w |}.

Definition log_together_request (req : ChatRequest) (w : World) : World :=
  {| conversation_sessions := conversation_sessions w;
     together_requests := together_requests w ++ [req];
     twilio_requests := twilio_requests w |}.

Definition log_twilio_request (req : CallCreate) (w : World) : World :=
  {| conversation_sessions := conversation_sessions w;
     together_requests := together_requests w;
     twilio_requests := twilio_requests w ++ [req] |}.

Inductive Outcome (A : Type) :=
  | Returns (a : A)
  | Raises (e : exn).
Arguments Returns {A} a.
Arguments Raises {A} e.

Definition M (A : Type) : Type := World → Outcome A * World.

Module HandlerMonad.

Definition ret {A} (a : A) : M A := λ w, (Returns a, w).

Definition bind {A B} (m : M A) (k : A → M B) : M B :=
  λ w, match m w with
       | (Returns a, w') => k a w'
       | (Raises e, w') => (Raises e, w')
       end.

Definition raise {A} (e : exn) : M A := λ w, (Raises e, w).

(** [try: m  except Exception as e: h e] *)
Definition try_except {A} (m : M A) (h : exn → M A) : M A :=
  λ w, match m w with
       | (Returns a, w') => (Returns a, w')
       | (Raises e, w') => h e w'
       end.

(** [print(s)] *)
Definition print_line (s : pystr) : M unit :=
  λ w, if stdout_encodable s then (Returns tt, w)
       else (Raises UnicodeEncodeError, w).

Definition get_sessions : M (gmap CallSid Session) :=
  λ w, (Returns (conversation_sessions w), w).

Definition modify_sessions (f : gmap CallSid Session → gmap CallSid Session)
    : M unit :=
  λ w, (Returns tt, with_sessions f w).

End HandlerMonad.
Import HandlerMonad.

Declare Scope handler_scope.
Delimit Scope handler_scope with handler.
Notation "'let*' x ':=' m 'in' k" := (bind m (λ x, k))
  (at level 10, x name, m at level 100, k at level 200) : handler_scope.
Notation "m ';;;' k" := (bind m (λ _, k))
  (at level 100, k at level 200, right associativity) : handler_scope.
Local Open Scope handler_scope.

(** ** The program *)

Section Program.

(** Process configuration, read from the environment at start-up. *)
Variable TWILIO_ACCOUNT_SID TWILIO_AUTH_TOKEN TWILIO_PHONE_NUMBER : option pystr.
Variable NGROK_URL : option pystr.

(** [load_prompt("system_prompt_llama")]: the stripped text of the prompt
    file, fixed for the life of the process. *)
Variable SYSTEM_MESSAGE : pystr.

(** [together_client.chat.completions.create]: given the arguments of the
    calls already made and those of a new call, the completion the call
    returns or the exception it raises. *)
Variable together_create : list ChatRequest → ChatRequest → ApiResult ChatCompletion.

(** [Client(...).calls.create], likewise. *)
Variable twilio_calls_create : list CallCreate → CallCreate → ApiResult CallInstance.

(** [str(e)] for an exception [e]. *)
Variable str_exn : exn → pystr.

Definition LLAMA_MODEL : pystr := lit "meta-llama/Llama-3-70b-chat-hf".

Definition GREETING : pystr :=
  lit "Hello! Thank you for calling. How can I assist you today?".
Definition REPROMPT : pystr :=
  lit "I didn't catch that. Could you please repeat?".
Definition FALLBACK : pystr :=
  lit "I apologize, but I'm having trouble processing your request right now. Please try again.".
Definition GOODBYE : pystr :=
  lit "Thank you for calling. Have a great day!".

(** [together_client.chat.completions.create(...)] *)
Definition chat_completions_create (req : ChatRequest) : M ChatCompletion :=
  λ w,
    match together_create (together_requests w) req with
    | ApiOk r => (Returns r, log_together_request req w)
    | ApiRaise e => (Raises e, log_together_request req w)
    end.

(** The keyword arguments of the one call-origination request. *)
Definition origination_request (to_number : pystr) : CallCreate :=
  {| account_sid := TWILIO_ACCOUNT_SID;
     auth_token := TWILIO_AUTH_TOKEN;
     url := str_of_optional NGROK_URL ++ lit "/voice-handler";
     to := to_number;
     from_ := TWILIO_PHONE_NUMBER;
     record := true;
     recording_status_callback :=
       str_of_optional NGROK_URL ++ lit "/recording-status";
     recording_status_callback_method := lit "POST" |}.

(** [Client(sid, token).calls.create(...)] *)
Definition client_calls_create (req : CallCreate) : M CallInstance :=
  λ w,
    match twilio_calls_create (twilio_requests w) req with
    | ApiOk r => (Returns r, log_twilio_request req w)
    | ApiRaise e => (Raises e, log_twilio_request req w)
    end.

(** [conversation_sessions[call_sid]] *)
Definition session_getitem (call_sid : CallSid) : M Session :=
  let* sessions := get_sessions in
  match sessions !! call_sid with
  | Some session => ret session
  | None => raise (KeyError call_sid)
  end.

(** [conversation_sessions[call_sid]["conversation_history"].append(m)] *)
Definition history_append (call_sid : CallSid) (m : Message) : M unit :=
  let* session := session_getitem call_sid in
  modify_sessions
    <[call_sid := mkSession (conversation_history session ++ [m])]>.

(** [response.choices[0].message.content.strip()] *)
Definition first_choice_text (response : ChatCompletion) : M pystr :=
  match choices response with
  | None => raise TypeError
  | Some [] => raise IndexError
  | Some (c :: _) =>
      match message c with
      | None => raise AttributeError
      | Some m =>
          match msg_content m with
          | None => raise AttributeError
          | Some text => ret (strip text)
          end
      end
  end.

(** The keyword arguments of the one chat-completion call. *)
Definition completion_request (history : list Message) : ChatRequest :=
  {| model := LLAMA_MODEL;
     messages := history;
     max_tokens := 150;
     temperature := 3 # 10;
     top_p := 7 # 10;
     top_k := 50;
     repetition_penalty := 1 # 1 |}.

Definition generate_llama_response (call_sid : CallSid) : M pystr :=
  try_except
    (let* session := session_getitem call_sid in
     let* response :=
       chat_completions_create
         (completion_request (conversation_history session)) in
     first_choice_text response)
    (λ _, ret FALLBACK).

(** The TwiML document built at the end of [handle_voice_interaction]. *)
Definition voice_response (ai_response : pystr) : Response :=
  let gather :=
    {| gather_input := lit "speech";
       gather_action := lit "/voice-handler";
       gather_method := lit "POST";
       gather_enhanced := true;
       gather_speech_model := lit "phone_call";
       gather_speech_timeout := lit "auto";
       gather_timeout := 10;
       gather_nested := [mkSay ai_response (Some (lit "Polly.Joanna"))] |} in
  {| body := mkVoiceResponse [VGather gather; VSay (mkSay GOODBYE None)];
     media_type := lit "application/xml" |}.

Definition handle_voice_interaction (form_data : FormData) : M Response :=
  let call_sid := form_data !! lit "CallSid" in
  let speech_result := default [] (form_data !! lit "SpeechResult") in
  let* sessions := get_sessions in
  let* ai_response :=
    match sessions !! call_sid with
    | None =>
        modify_sessions
          <[call_sid := mkSession [mkMessage (lit "system") SYSTEM_MESSAGE]]> ;;;
        ret GREETING
    | Some _ =>
        if truthy speech_result then
          history_append call_sid (mkMessage (lit "user") speech_result) ;;;
          let* ai_response := generate_llama_response call_sid in
          history_append call_sid (mkMessage (lit "assistant") ai_response) ;;;
          ret ai_response
        else ret REPROMPT
    end in
  print_line (lit "AI Response: " ++ ai_response) ;;;
  ret (voice_response ai_response).

Definition handle_recording_status (form_data : FormData) : M JsonObject :=
  let recording_status := form_data !! lit "RecordingStatus" in
  let call_sid := form_data !! lit "CallSid" in
  (if decide (recording_status = Some (lit "completed")) then
     let* sessions := get_sessions in
     match sessions !! call_sid with
     | Some _ => modify_sessions (delete call_sid)
     | None => ret tt
     end
   else ret tt) ;;;
  ret [(lit "status", JStr (lit "received"))].

(** The body of a [POST /make-call] request after validation by the
    framework. *)
Record CallRequest := mkCallRequest { to_phone_number : pystr }.

Definition make_call (request : CallRequest) : M JsonObject :=
  if negb (truthy (to_phone_number request)) then
    ret [(lit "error", JStr (lit "Phone number is required"))]
  else
    try_except
      (let* call :=
         client_calls_create
           (origination_request (to_phone_number request)) in
       ret [(lit "call_sid", json_of_optional (sid call));
            (lit "status", JStr (lit "success"))])
      (λ e, ret [(lit "error", JStr (str_exn e));
                 (lit "status", JStr (lit "failed"))]).

Definition health_check : M JsonObject :=
  ret [(lit "status", JStr (lit "healthy"));
       (lit "message", JStr (lit "AI Calling Agent (Llama3) is running!"))].

(** Shutdown hook. *)
Definition cleanup_sessions : M unit := modify_sessions (λ _, ∅).

(** *** The server as a transition system *)

Inductive Event :=
  | EvHealthCheck
  | EvMakeCall (request : CallRequest)
  | EvVoice (form_data : FormData)
  | EvRecordingStatus (form_data : FormData)
  | EvShutdown.

Definition dispatch (ev : Event) : M unit :=
  match ev with
  | EvHealthCheck => health_check ;;; ret tt
  | EvMakeCall request => make_call request ;;; ret tt
  | EvVoice form_data => handle_voice_interaction form_data ;;; ret tt
  | EvRecordingStatus form_data => handle_recording_status form_data ;;; ret tt
  | EvShutdown => cleanup_sessions
  end.

Definition step (w : World) (ev : Event) : World := (dispatch ev w).2.

Definition run (w : World) (evs : list Event) : World := fold_left step evs w.

End Program.

(** The process right after start-up: [conversation_sessions = {}]. *)
Definition initial_world : World :=
  {| conversation_sessions := ∅; together_requests := []; twilio_requests := [] |}.

(** ** Module initialisation *)

(** The module body is modelled from [load_prompt] (line 15) to the
    construction of the Together client (line 47), on the environment that
    [load_dotenv()] leaves; the imports, [load_dotenv()] and [FastAPI()] are
    taken to have succeeded. *)

(** What [open(path, "r", encoding="utf-8")] followed by [read()] does: it
    gives the text, or raises [FileNotFoundError], or raises something else
    ([UnicodeDecodeError], [IsADirectoryError], [PermissionError], ...),
    given by its class name and description. *)
Inductive ReadOutcome :=
  | ReadText (text : pystr)
  | NoSuchFile
  | ReadRaises (class_name description : pystr).

(** What can stop the module from loading: [int()] rejects the [PORT]
    variable (a [ValueError], kept apart here); the prompt file is missing,
    or reporting that on standard output fails; one of the two explicit
    [raise ValueError(...)] is reached; or library code ([open], [read], the
    Together client's constructor) raises some other exception. *)
Inductive StartupError :=
  | FileNotFoundError (path : pystr)
  | ValueError (msg : pystr)
  | InvalidIntLiteral (literal : pystr)
  | StartupUnicodeEncodeError
  | LibraryError (class_name description : pystr).

(** The module-level configuration names. *)
Record Config := mkConfig {
  cfg_TOGETHER_API_KEY : option pystr;
  cfg_TWILIO_ACCOUNT_SID : option pystr;
  cfg_TWILIO_AUTH_TOKEN : option pystr;
  cfg_TWILIO_PHONE_NUMBER : option pystr;
  cfg_NGROK_URL : option pystr;
  cfg_PORT : Z;
  cfg_SYSTEM_MESSAGE : pystr
}.

(** Truth value of an [Optional[str]] in [if not x:]. *)
Definition truthy_optional (x : option pystr) : bool :=
  match x with
  | Some s => truthy s
  | None => false
  end.

(** [os.path.join] (POSIX): a component that starts with the separator
    restarts the path; otherwise one separator is put between components. *)
Definition SEP : N := 47.

Definition ends_with_sep (a : pystr) : bool :=
  match last a with
  | Some c => c =? SEP
  | None => false
  end.

Definition starts_with_sep (b : pystr) : bool :=
  match b with
  | c :: _ => c =? SEP
  | [] => false
  end.

Definition path_join_step (path b : pystr) : pystr :=
  if starts_with_sep b then b
  else if negb (truthy path) || ends_with_sep path then path ++ b
  else path ++ [SEP] ++ b.

Definition path_join (a : pystr) (ps : list pystr) : pystr :=
  fold_left path_join_step ps a.

Section Startup.

(** [os.path.dirname(os.path.realpath(__file__))] *)
Variable module_dir : pystr.

(** The file system as [open(path, "r", encoding="utf-8").read()] sees
    it. *)
Variable read_text : pystr → ReadOutcome.

(** [int(s)] on a string: the number, or [None] when it raises. *)
Variable py_int : pystr → option Z.

(** [Together(api_key=...)]: [None] when the client is built, or the class
    name and description of the exception the constructor raises (for
    instance on a malformed proxy setting). *)
Variable together_init : option pystr → option (pystr * pystr).

Definition prompt_path (file_name : pystr) : pystr :=
  path_join module_dir [lit "prompts"; file_name ++ lit ".txt"].

Definition load_prompt (file_name : pystr) : StartupError + pystr :=
  match read_text (prompt_path file_name) with
  | ReadText text => inr (strip text)
  | NoSuchFile =>
      (* except FileNotFoundError: print(...); raise *)
      if stdout_encodable (lit "Could not find file: " ++ prompt_path file_name)
      then inl (FileNotFoundError (prompt_path file_name))
      else inl StartupUnicodeEncodeError
  | ReadRaises class_name description =>
      inl (LibraryError class_name description)
  end.

(** The module body, top to bottom, on the environment left by
    [load_dotenv()]. *)
Definition startup (env : gmap pystr pystr) : StartupError + Config :=
  let TOGETHER_API_KEY := env !! lit "TOGETHER_API_KEY" in
  let TWILIO_ACCOUNT_SID := env !! lit "TWILIO_ACCOUNT_SID" in
  let TWILIO_AUTH_TOKEN := env !! lit "TWILIO_AUTH_TOKEN" in
  let TWILIO_PHONE_NUMBER := env !! lit "TWILIO_PHONE_NUMBER" in
  let NGROK_URL := env !! lit "NGROK_URL" in
  match
    match env !! lit "PORT" with
    | Some s =>
        match py_int s with
        | Some port => inr port
        | None => inl (InvalidIntLiteral s)
        end
    | None => inr 8000%Z
    end
  with
  | inl e => inl e
  | inr PORT =>
      match load_prompt (lit "system_prompt_llama") with
      | inl e => inl e
      | inr SYSTEM_MESSAGE =>
          if negb (truthy_optional TOGETHER_API_KEY) then
            inl (ValueError
                   (lit "Missing Together API key. Please set it in the .env file."))
          else if negb (truthy_optional TWILIO_ACCOUNT_SID)
                  || negb (truthy_optional TWILIO_AUTH_TOKEN)
                  || negb (truthy_optional TWILIO_PHONE_NUMBER) then
            inl (ValueError
                   (lit "Missing Twilio configuration. Please set it in the .env file."))
          else
            match together_init TOGETHER_API_KEY with
            | Some (class_name, description) =>
                inl (LibraryError class_name description)
            | None =>
                inr {| cfg_TOGETHER_API_KEY := TOGETHER_API_KEY;
                       cfg_TWILIO_ACCOUNT_SID := TWILIO_ACCOUNT_SID;
                       cfg_TWILIO_AUTH_TOKEN := TWILIO_AUTH_TOKEN;
                       cfg_TWILIO_PHONE_NUMBER := TWILIO_PHONE_NUMBER;
                       cfg_NGROK_URL := NGROK_URL;
                       cfg_PORT := PORT;
                       cfg_SYSTEM_MESSAGE := SYSTEM_MESSAGE |}
            end
      end
  end.

End Startup.

(** ** Specification vocabulary *)

Definition system_message (prompt : pystr) : Message :=
  mkMessage (lit "system") prompt.
Definition user_message (text : pystr) : Message :=
  mkMessage (lit "user") text.
Definition assistant_message (text : pystr) : Message :=
  mkMessage (lit "assistant") text.

Definition is_system (m : Message) : bool :=
  bool_decide (role m = lit "system").

(** A transcript opens with the system message carrying the prompt and has
    no other system message. *)
Definition transcript_well_formed (prompt : pystr) (h : list Message) : Prop :=
  ∃ rest, h = system_message prompt :: rest
          ∧ forallb (λ m, negb (is_system m)) rest = true.

Definition store_invariant (prompt : pystr) (w : World) : Prop :=
  map_Forall (λ _ session,
                transcript_well_formed prompt (conversation_history session))
             (conversation_sessions w).

(** The text of the first choice of a completion, when there is one. *)
Definition first_choice_content (r : ChatCompletion) : option pystr :=
  cs ← choices r; c ← head cs; m ← message c; msg_content m.

(** What the adapter answers for a given behaviour of the provider. *)
Definition adapter_reply (r : ApiResult ChatCompletion) : pystr :=
  match r with
  | ApiOk response =>
      match first_choice_content response with
      | Some text => strip text
      | None => FALLBACK
      end
  | ApiRaise _ => FALLBACK
  end.

(** [r] is [t] without its leading and trailing whitespace. *)
Definition trimmed_of (t r : pystr) : Prop :=
  ∃ l l', t = l ++ r ++ l'
          ∧ forallb py_isspace l = true
          ∧ forallb py_isspace l' = true
          ∧ (py_isspace <$> head r) ≠ Some true
          ∧ (py_isspace <$> last r) ≠ Some true.




Definition ACKNOWLEDGEMENT : JsonObject :=
  [(lit "status", JStr (lit "received"))].

Definition PHONE_REQUIRED : JsonObject :=
  [(lit "error", JStr (lit "Phone number is required"))].

(** The fields the two webhook handlers read. *)
Definition form_call_sid (form_data : FormData) : CallSid :=
  form_data !! lit "CallSid".
Definition form_speech (form_data : FormData) : option pystr :=
  form_data !! lit "SpeechResult".
Definition form_recording_status (form_data : FormData) : option pystr :=
  form_data !! lit "RecordingStatus".

(** How the voice handler ends once the utterance is chosen: the final
    [print] either lets the document through or raises. *)
Definition voice_outcome (ai_response : pystr) : Outcome Response :=
  if stdout_encodable ai_response then Returns (voice_response ai_response)
  else Raises UnicodeEncodeError.

(** The events that take the session of [call_sid] out of the store. *)
Definition removes (ev : Event) (call_sid : CallSid) : Prop :=
  ev = EvShutdown
  ∨ ∃ form_data, ev = EvRecordingStatus form_data
      ∧ form_recording_status form_data = Some (lit "completed")
      ∧ form_call_sid form_data = call_sid.


(** [s] neither starts nor ends with whitespace. *)
Definition is_trimmed (s : pystr) : bool :=
  negb (match head s with Some c => py_isspace c | None => false end)
  && negb (match last s with Some c => py_isspace c | None => false end).

(** A sequence of turns: a user message with non-empty text, then an
    assistant message with trimmed text, any number of times. *)
Fixpoint dialogue (ms : list Message) : bool :=
  match ms with
  | [] => true
  | u :: a :: ms' =>
      bool_decide (role u = lit "user") && truthy (content u)
      && bool_decide (role a = lit "assistant") && is_trimmed (content a)
      && dialogue ms'
  | [_] => false
  end.

(** A stored transcript: the system message, then a sequence of turns. *)
Definition transcript_dialogue (prompt : pystr) (h : list Message) : Prop :=
  ∃ turns, h = system_message prompt :: turns ∧ dialogue turns = true.

(** A request as the inference provider receives it: the fixed model and
    sampling parameters, and a transcript that ends with the caller's new
    utterance. *)
Definition request_well_formed (prompt : pystr) (req : ChatRequest) : Prop :=
  req = completion_request (messages req)
  ∧ ∃ turns speech,
      messages req = system_message prompt :: turns ++ [user_message speech]
      ∧ dialogue turns = true
      ∧ speech ≠ [].

(** The request, if any, that an event makes the server send to the
    inference provider. *)
Definition inference_request_of (w : World) (ev : Event) : list ChatRequest :=
  match ev with
  | EvVoice form_data =>
      match conversation_sessions w !! form_call_sid form_data with
      | Some session =>
          let speech := default [] (form_speech form_data) in
          if truthy speech then
            [completion_request
               (conversation_history session ++ [user_message speech])]
          else []
      | None => []
      end
  | _ => []
  end.


(** Events that take sessions out of the store: shutdown and a recording
    status "completed". *)
Definition is_removal (ev : Event) : bool :=
  match ev with
  | EvShutdown => true
  | EvRecordingStatus form_data =>
      bool_decide (form_recording_status form_data = Some (lit "completed"))
  | _ => false
  end.


(** Every stored transcript is the system message followed by turns. *)
Definition store_dialogue (prompt : pystr) (w : World) : Prop :=
  map_Forall (λ _ session,
                transcript_dialogue prompt (conversation_history session))
             (conversation_sessions w).

(** Every request sent so far to the inference provider is well formed. *)
Definition inference_log_well_formed (prompt : pystr) (w : World) : Prop :=
  Forall (request_well_formed prompt) (together_requests w).

(** ** Concrete providers and requests used in the examples *)

Module Fixtures.

Definition PROMPT : pystr := lit "You are a helpful phone assistant.".

Definition completion_with (text : pystr) : ChatCompletion :=
  mkChatCompletion (Some [mkChoice (Some (mkChatMessage (Some text)))]).

Definition helpful_together : list ChatRequest → ChatRequest → ApiResult ChatCompletion :=
  λ _ _, ApiOk (completion_with (lit "  Sure, I can help with that. " ++ [10])).

Definition unreadable_together : list ChatRequest → ChatRequest → ApiResult ChatCompletion :=
  λ _ _, ApiOk (mkChatCompletion (Some [])).


Definition accepting_twilio : list CallCreate → CallCreate → ApiResult CallInstance :=
  λ _ _, ApiOk (mkCallInstance (Some (lit "CA123"))).

Definition rejecting_twilio : list CallCreate → CallCreate → ApiResult CallInstance :=
  λ _ _, ApiRaise (ProviderError (lit "invalid phone number")).

Definition describe (e : exn) : pystr :=
  match e with
  | ProviderError d => d
  | _ => lit "error"
  end.

Definition ACCOUNT_SID : option pystr := Some (lit "AC00000000").
Definition AUTH_TOKEN : option pystr := Some (lit "secret").
Definition PHONE_NUMBER : option pystr := Some (lit "+15550100").
Definition BASE_URL : option pystr := Some (lit "https://agent.example").

Definition other_call : CallSid := Some (lit "CA999").

Definition form_first : FormData := {[ lit "CallSid" := lit "CA123" ]}.
Definition form_speech_turn : FormData :=
  <[ lit "SpeechResult" := lit "I need help" ]> form_first.
Definition form_empty_speech : FormData :=
  <[ lit "SpeechResult" := [] ]> form_first.
Definition form_completed : FormData :=
  <[ lit "RecordingStatus" := lit "completed" ]> form_first.
Definition form_in_progress : FormData :=
  <[ lit "RecordingStatus" := lit "in-progress" ]> form_first.

(** The store after the first webhook of call CA123. *)
Definition world_active : World :=
  {| conversation_sessions :=
       {[ Some (lit "CA123") := mkSession [system_message PROMPT] ]};
     together_requests := [];
     twilio_requests := [] |}.

(** A provider whose reply holds a lone surrogate, as the JSON text
    ["\ud800"] decodes to. *)
Definition surrogate_together : list ChatRequest → ChatRequest → ApiResult ChatCompletion :=
  λ _ _, ApiOk (completion_with [55296]).

(** A speech turn and a completed recording for call CA123 in one form. *)
Definition form_completed_turn : FormData :=
  <[ lit "RecordingStatus" := lit "completed" ]> form_speech_turn.

Definition other_transcript : list Message :=
  [system_message PROMPT; user_message (lit "Hello");
   assistant_message (lit "Hi there.")].

(** Two calls in progress: CA123 just greeted, CA999 one turn in. *)
Definition world_two_calls : World :=
  {| conversation_sessions :=
       <[other_call := mkSession other_transcript]>
         (conversation_sessions world_active);
     together_requests := [];
     twilio_requests := [] |}.



Definition MODULE_DIR : pystr := lit "/srv/agent".

Definition PROMPT_FILE : pystr :=
  lit "/srv/agent/prompts/system_prompt_llama.txt".

(** A file system holding only the prompt file. *)
Definition prompt_files : pystr → ReadOutcome :=
  λ path, if decide (path = PROMPT_FILE)
          then ReadText (lit "  You are a helpful phone assistant." ++ [10])
          else NoSuchFile.

(** A file system where the prompt file holds bytes that are not UTF-8. *)
Definition undecodable_files : pystr → ReadOutcome :=
  λ _, ReadRaises (lit "UnicodeDecodeError")
         (lit "'utf-8' codec can't decode byte 0xff in position 0").

(** The Together client's constructor, succeeding and failing. *)
Definition client_built : option pystr → option (pystr * pystr) := λ _, None.

Definition client_rejects_proxy : option pystr → option (pystr * pystr) :=
  λ _, Some (lit "ValueError", lit "Unknown scheme for proxy URL").

(** [int()] on the one literal the examples use. *)
Definition int_of_literal : pystr → option Z :=
  λ s, if decide (s = lit "8080") then Some 8080%Z else None.

Definition environment : gmap pystr pystr :=
  list_to_map
    [(lit "TOGETHER_API_KEY", lit "tk-0000");
     (lit "TWILIO_ACCOUNT_SID", lit "AC00000000");
     (lit "TWILIO_AUTH_TOKEN", lit "secret");
     (lit "TWILIO_PHONE_NUMBER", lit "+15550100");
     (lit "NGROK_URL", lit "https://agent.example");
     (lit "PORT", lit "8080")].

Definition configuration : Config :=
  {| cfg_TOGETHER_API_KEY := Some (lit "tk-0000");
     cfg_TWILIO_ACCOUNT_SID := ACCOUNT_SID;
     cfg_TWILIO_AUTH_TOKEN := AUTH_TOKEN;
     cfg_TWILIO_PHONE_NUMBER := PHONE_NUMBER;
     cfg_NGROK_URL := BASE_URL;
     cfg_PORT := 8080;
     cfg_SYSTEM_MESSAGE := PROMPT |}.

Definition HELPFUL_REPLY : pystr := lit "Sure, I can help with that.".

(** The server with the helpful inference provider and the accepting
    telephony provider. *)
Definition serve : World → list Event → World :=
  run ACCOUNT_SID AUTH_TOKEN PHONE_NUMBER BASE_URL PROMPT helpful_together
    accepting_twilio describe.

Definition transcript_of (w : World) (call_sid : CallSid) : option (list Message) :=
  conversation_history <$> conversation_sessions w !! call_sid.

End Fixtures.

(** ** Properties *)

Section Properties.

Context (SYSTEM_MESSAGE : pystr).
Context (together_create : list ChatRequest → ChatRequest → ApiResult ChatCompletion).

Local Abbreviation voice := (handle_voice_interaction SYSTEM_MESSAGE together_create).
Local Abbreviation generate := (generate_llama_response together_create).

(** *** Whitespace trimming *)

Lemma lstrip_split (s : pystr) :
  ∃ l, s = l ++ lstrip s ∧ forallb py_isspace l = true.
Proof.
  induction s as [|c s [l [Hs Hl]]]; simpl.
  - by exists [].
  - destruct (py_isspace c) eqn:Hc.
    + exists (c :: l). simpl. rewrite Hc, Hl. split; [by f_equal | done].
    + by exists [].
Qed.

Lemma lstrip_head (s : pystr) : (py_isspace <$> head (lstrip s)) ≠ Some true.
Proof.
  induction s as [|c s IH]; simpl; [done|].
  destruct (py_isspace c) eqn:Hc; [done|]. simpl. by rewrite Hc.
Qed.

Lemma lstrip_suffix (s : pystr) : lstrip s `suffix_of` s.
Proof.
  destruct (lstrip_split s) as [l [Hs _]]. by exists l.
Qed.

Lemma forallb_reverse {A} (f : A → bool) (l : list A) :
  forallb f (reverse l) = forallb f l.
Proof.
  induction l as [|x l IH]; [done|].
  rewrite reverse_cons, forallb_app, IH. simpl.
  rewrite andb_true_r. apply andb_comm.
Qed.

Lemma rstrip_split (s : pystr) :
  ∃ l, s = rstrip s ++ l ∧ forallb py_isspace l = true.
Proof.
  unfold rstrip. destruct (lstrip_split (reverse s)) as [l [Hs Hl]].
  exists (reverse l). split.
  - rewrite <- reverse_app, <- Hs. by rewrite reverse_involutive.
  - by rewrite forallb_reverse.
Qed.

Lemma rstrip_last (s : pystr) : (py_isspace <$> last (rstrip s)) ≠ Some true.
Proof.
  unfold rstrip. rewrite last_reverse. apply lstrip_head.
Qed.

Lemma rstrip_head (s : pystr) :
  (py_isspace <$> head s) ≠ Some true →
  (py_isspace <$> head (rstrip s)) ≠ Some true.
Proof.
  intros Hs. destruct (rstrip_split s) as [l [Hl _]].
  destruct (rstrip s) as [|c r] eqn:Hr; [done|].
  rewrite Hl in Hs. exact Hs.
Qed.

Lemma strip_trimmed (t : pystr) : trimmed_of t (strip t).
Proof.
  unfold strip.
  destruct (lstrip_split t) as [l [Hl Hls]].
  destruct (rstrip_split (lstrip t)) as [l' [Hr Hrs]].
  exists l, l'. split_and!; try done.
  - by rewrite <- Hr.
  - apply rstrip_head, lstrip_head.
  - apply rstrip_last.
Qed.

(** *** World bookkeeping *)

Lemma with_sessions_same (w : World) (f : gmap CallSid Session → gmap CallSid Session) :
  f (conversation_sessions w) = conversation_sessions w → with_sessions f w = w.
Proof. destruct w as [ss tg tw]. unfold with_sessions. simpl. by intros ->. Qed.

Lemma with_sessions_compose (w : World) (f g : gmap CallSid Session → gmap CallSid Session) :
  with_sessions g (with_sessions f w) = with_sessions (g ∘ f) w.
Proof. done. Qed.

Lemma bind_returns {A B} (m : M A) (k : A → M B) (w : World) (a : A) (w' : World) :
  m w = (Returns a, w') → bind m k w = k a w'.
Proof. unfold bind. by intros ->. Qed.

(** *** Equations of the inference adapter *)

Lemma first_choice_text_returns (response : ChatCompletion) (text : pystr) (w : World) :
  first_choice_content response = Some text →
  first_choice_text response w = (Returns (strip text), w).
Proof.
  destruct response as [[[|[[[[t|]]|]] cs]|]]; simpl; try done.
  by intros [= ->].
Qed.

Lemma first_choice_text_raises (response : ChatCompletion) (w : World) :
  first_choice_content response = None →
  ∃ e, first_choice_text response w = (Raises e, w).
Proof.
  destruct response as [[[|[[[[t|]]|]] cs]|]]; simpl; try done; eauto.
Qed.

Lemma generate_present (call_sid : CallSid) (session : Session) (w : World) :
  conversation_sessions w !! call_sid = Some session →
  let req := completion_request (conversation_history session) in
  generate call_sid w =
    (Returns (adapter_reply (together_create (together_requests w) req)),
     log_together_request req w).
Proof.
  intros Hs req.
  unfold generate_llama_response, try_except, bind, session_getitem, bind,
    get_sessions, chat_completions_create.
  rewrite Hs. simpl. fold req.
  destruct (together_create (together_requests w) req) as [response|e]; [|done].
  simpl. destruct (first_choice_content response) as [text|] eqn:Ht.
  - by rewrite (first_choice_text_returns _ _ _ Ht).
  - destruct (first_choice_text_raises _ (log_together_request req w) Ht) as [e ->].
    done.
Qed.

Lemma generate_absent (call_sid : CallSid) (w : World) :
  conversation_sessions w !! call_sid = None →
  generate call_sid w = (Returns FALLBACK, w).
Proof.
  intros Hs.
  unfold generate_llama_response, try_except, bind, session_getitem, bind,
    get_sessions.
  by rewrite Hs.
Qed.

(** *** Equations of the voice handler, one per branch *)

Lemma stdout_encodable_ai_response (ai_response : pystr) :
  stdout_encodable (lit "AI Response: " ++ ai_response)
  = stdout_encodable ai_response.
Proof. unfold stdout_encodable. by rewrite forallb_app. Qed.

(** The last two statements of the handler: the [print] of the utterance
    and the document. *)
Lemma voice_finish (ai_response : pystr) (w : World) :
  (print_line (lit "AI Response: " ++ ai_response) ;;;
   ret (voice_response ai_response)) w
  = (voice_outcome ai_response, w).
Proof.
  unfold bind, print_line, voice_outcome.
  rewrite stdout_encodable_ai_response.
  by destruct (stdout_encodable ai_response).
Qed.

Lemma history_append_present (call_sid : CallSid) (session : Session) (m : Message) (w : World) :
  conversation_sessions w !! call_sid = Some session →
  history_append call_sid m w =
    (Returns tt,
     with_sessions <[call_sid := mkSession (conversation_history session ++ [m])]> w).
Proof.
  intros Hs. unfold history_append, bind, session_getitem, bind, get_sessions.
  by rewrite Hs.
Qed.

Lemma voice_new (form_data : FormData) (w : World) :
  conversation_sessions w !! form_call_sid form_data = None →
  voice form_data w =
    (Returns (voice_response GREETING),
     with_sessions
       <[form_call_sid form_data := mkSession [system_message SYSTEM_MESSAGE]]> w).
Proof.
  intros Hs. unfold handle_voice_interaction, bind, get_sessions.
  unfold form_call_sid in Hs. by rewrite Hs.
Qed.

Lemma voice_no_speech (form_data : FormData) (session : Session) (w : World) :
  conversation_sessions w !! form_call_sid form_data = Some session →
  truthy (default [] (form_speech form_data)) = false →
  voice form_data w = (Returns (voice_response REPROMPT), w).
Proof.
  intros Hs Hsp. unfold handle_voice_interaction, bind, get_sessions.
  unfold form_call_sid in Hs. unfold form_speech in Hsp.
  by rewrite Hs, Hsp.
Qed.

Lemma voice_turn (form_data : FormData) (session : Session) (w : World) :
  conversation_sessions w !! form_call_sid form_data = Some session →
  truthy (default [] (form_speech form_data)) = true →
  let call_sid := form_call_sid form_data in
  let speech := default [] (form_speech form_data) in
  let asked := conversation_history session ++ [user_message speech] in
  let req := completion_request asked in
  let reply := adapter_reply (together_create (together_requests w) req) in
  voice form_data w =
    (voice_outcome reply,
     log_together_request req
       (with_sessions
          <[call_sid := mkSession (asked ++ [assistant_message reply])]> w)).
Proof.
  intros Hs Hsp. cbv zeta. unfold form_call_sid, form_speech in *.
  set (call_sid := form_data !! lit "CallSid") in *.
  set (speech := default [] (form_data !! lit "SpeechResult")) in *.
  set (asked := conversation_history session ++ [user_message speech]).
  set (req := completion_request asked).
  set (reply := adapter_reply (together_create (together_requests w) req)).
  set (w1 := with_sessions <[call_sid := mkSession asked]> w).
  assert (conversation_sessions w1 !! call_sid = Some (mkSession asked)) as H1
    by apply lookup_insert_eq.
  unfold handle_voice_interaction.
  rewrite (bind_returns _ _ w (conversation_sessions w) w) by done.
  fold call_sid speech. rewrite Hs, Hsp.
  erewrite bind_returns; cycle 1.
  { erewrite bind_returns by (apply history_append_present; exact Hs).
    fold (user_message speech) asked w1.
    erewrite bind_returns by (apply generate_present; exact H1).
    erewrite bind_returns by (apply history_append_present; exact H1).
    reflexivity. }
  rewrite voice_finish. simpl. fold req. fold reply. f_equal.
  unfold log_together_request, with_sessions, w1. simpl.
  f_equal. apply insert_insert_eq.
Qed.

(** Every voice-handler invocation ends, and does one of three things to
    the store. *)
Lemma voice_cases (form_data : FormData) (w : World) :
  let call_sid := form_call_sid form_data in
  ∃ reply w',
    voice form_data w = (voice_outcome reply, w')
    ∧ match conversation_sessions w !! call_sid with
      | None =>
          conversation_sessions w' =
            <[call_sid := mkSession [system_message SYSTEM_MESSAGE]]>
              (conversation_sessions w)
      | Some session =>
          conversation_sessions w' = conversation_sessions w
          ∨ ∃ speech answer,
              conversation_sessions w' =
                <[call_sid := mkSession (conversation_history session
                     ++ [user_message speech; assistant_message answer])]>
                  (conversation_sessions w)
      end.
Proof.
  intros call_sid.
  destruct (conversation_sessions w !! call_sid) as [session|] eqn:Hs.
  - destruct (truthy (default [] (form_speech form_data))) eqn:Hsp.
    + eexists _, _. split; [exact (voice_turn _ _ _ Hs Hsp)|].
      right. eexists _, _. simpl. by rewrite <- app_assoc.
    + exists REPROMPT, w. split; [exact (voice_no_speech _ _ _ Hs Hsp)|]. by left.
  - exists GREETING. eexists. split; [exact (voice_new _ _ Hs)|]. done.
Qed.

(** *** Equation of the recording-status handler *)

Lemma recording_status_eq (form_data : FormData) (w : World) :
  handle_recording_status form_data w =
    (Returns ACKNOWLEDGEMENT,
     if bool_decide (form_recording_status form_data = Some (lit "completed"))
     then with_sessions (delete (form_call_sid form_data)) w
     else w).
Proof.
  unfold handle_recording_status, form_recording_status, form_call_sid.
  destruct (decide (form_data !! lit "RecordingStatus" = Some (lit "completed")))
    as [Hc|Hc].
  - rewrite (bool_decide_eq_true_2 _ Hc).
    unfold bind at 1 2, get_sessions.
    destruct (conversation_sessions w !! (form_data !! lit "CallSid")) eqn:Hs.
    + done.
    + simpl. unfold ret, ACKNOWLEDGEMENT. f_equal. symmetry.
      apply with_sessions_same. by apply delete_id.
  - by rewrite (bool_decide_eq_false_2 _ Hc).
Qed.

(** *** Equation of the call-origination endpoint *)

Context (TWILIO_ACCOUNT_SID TWILIO_AUTH_TOKEN TWILIO_PHONE_NUMBER NGROK_URL : option pystr).
Context (twilio_calls_create : list CallCreate → CallCreate → ApiResult CallInstance).
Context (str_exn : exn → pystr).

Local Abbreviation originate :=
  (make_call TWILIO_ACCOUNT_SID TWILIO_AUTH_TOKEN TWILIO_PHONE_NUMBER NGROK_URL
     twilio_calls_create str_exn).
Local Abbreviation origination :=
  (origination_request TWILIO_ACCOUNT_SID TWILIO_AUTH_TOKEN TWILIO_PHONE_NUMBER
     NGROK_URL).
Local Abbreviation server_step :=
  (step TWILIO_ACCOUNT_SID TWILIO_AUTH_TOKEN TWILIO_PHONE_NUMBER NGROK_URL
     SYSTEM_MESSAGE together_create twilio_calls_create str_exn).
Local Abbreviation server_run :=
  (run TWILIO_ACCOUNT_SID TWILIO_AUTH_TOKEN TWILIO_PHONE_NUMBER NGROK_URL
     SYSTEM_MESSAGE together_create twilio_calls_create str_exn).

Lemma make_call_eq (request : CallRequest) (w : World) :
  let req := origination (to_phone_number request) in
  originate request w =
    match to_phone_number request with
    | [] => (Returns PHONE_REQUIRED, w)
    | _ :: _ =>
        match twilio_calls_create (twilio_requests w) req with
        | ApiOk call =>
            (Returns [(lit "call_sid", json_of_optional (sid call));
                      (lit "status", JStr (lit "success"))],
             log_twilio_request req w)
        | ApiRaise e =>
            (Returns [(lit "error", JStr (str_exn e));
                      (lit "status", JStr (lit "failed"))],
             log_twilio_request req w)
        end
    end.
Proof.
  intros req. unfold make_call.
  destruct (to_phone_number request) as [|c number] eqn:Hn; [done|].
  simpl. unfold try_except, bind, client_calls_create. fold req.
  by destruct (twilio_calls_create (twilio_requests w) req).
Qed.

Lemma make_call_sessions (request : CallRequest) (w : World) :
  conversation_sessions (originate request w).2 = conversation_sessions w.
Proof.
  rewrite make_call_eq.
  destruct (to_phone_number request); [done|].
  by destruct (twilio_calls_create _ _).
Qed.

(** *** The transition system, event by event *)

Lemma step_voice (form_data : FormData) (w : World) :
  server_step w (EvVoice form_data) = (voice form_data w).2.
Proof.
  destruct (voice_cases form_data w) as (reply & w' & Hv & _).
  unfold step, dispatch, bind. rewrite Hv.
  by destruct (voice_outcome reply).
Qed.

Lemma step_recording_status (form_data : FormData) (w : World) :
  server_step w (EvRecordingStatus form_data) =
    if bool_decide (form_recording_status form_data = Some (lit "completed"))
    then with_sessions (delete (form_call_sid form_data)) w
    else w.
Proof. unfold step, dispatch, bind. by rewrite recording_status_eq. Qed.

Lemma step_make_call (request : CallRequest) (w : World) :
  conversation_sessions (server_step w (EvMakeCall request)) =
    conversation_sessions w.
Proof.
  unfold step, dispatch, bind. rewrite make_call_eq.
  destruct (to_phone_number request); [done|].
  by destruct (twilio_calls_create _ _).
Qed.

Lemma transcript_well_formed_turn (h : list Message) (speech answer : pystr) :
  transcript_well_formed SYSTEM_MESSAGE h →
  transcript_well_formed SYSTEM_MESSAGE
    (h ++ [user_message speech; assistant_message answer]).
Proof.
  intros (rest & -> & Hrest).
  exists (rest ++ [user_message speech; assistant_message answer]).
  split; [done|]. rewrite forallb_app, Hrest. reflexivity.
Qed.

Lemma transcript_well_formed_new :
  transcript_well_formed SYSTEM_MESSAGE [system_message SYSTEM_MESSAGE].
Proof. by exists []. Qed.

Lemma step_preserves_invariant (ev : Event) (w : World) :
  store_invariant SYSTEM_MESSAGE w →
  store_invariant SYSTEM_MESSAGE (server_step w ev).
Proof.
  unfold store_invariant. intros Hinv. destruct ev as [|request|form_data|form_data|].
  - exact Hinv.
  - by rewrite step_make_call.
  - rewrite step_voice.
    destruct (voice_cases form_data w) as (reply & w' & -> & Hw'). simpl.
    destruct (conversation_sessions w !! form_call_sid form_data)
      as [session|] eqn:Hs.
    + destruct Hw' as [->|(speech & answer & ->)]; [done|].
      apply map_Forall_insert_2; [|done].
      apply transcript_well_formed_turn. exact (Hinv _ _ Hs).
    + rewrite Hw'. apply map_Forall_insert_2; [|done].
      apply transcript_well_formed_new.
  - rewrite step_recording_status. case_bool_decide; [|done].
    simpl. by apply map_Forall_delete.
  - apply map_Forall_empty.
Qed.

Lemma step_append_only (ev : Event) (w : World) (k : CallSid) (session : Session) :
  conversation_sessions w !! k = Some session →
  match conversation_sessions (server_step w ev) !! k with
  | Some session' =>
      conversation_history session `prefix_of` conversation_history session'
  | None => removes ev k
  end.
Proof.
  intros Hk. destruct ev as [|request|form_data|form_data|].
  - unfold step. simpl. by rewrite Hk.
  - by rewrite step_make_call, Hk.
  - rewrite step_voice.
    destruct (voice_cases form_data w) as (reply & w' & -> & Hw'). simpl.
    destruct (decide (k = form_call_sid form_data)) as [->|Hne].
    + rewrite Hk in Hw'. destruct Hw' as [->|(speech & answer & ->)].
      * by rewrite Hk.
      * rewrite lookup_insert_eq. simpl. by apply prefix_app_r.
    + destruct (conversation_sessions w !! form_call_sid form_data).
      * destruct Hw' as [->|(speech & answer & ->)].
        -- by rewrite Hk.
        -- rewrite lookup_insert_ne by done. by rewrite Hk.
      * rewrite Hw', lookup_insert_ne by done. by rewrite Hk.
  - rewrite step_recording_status. case_bool_decide as Hc.
    + simpl. destruct (decide (k = form_call_sid form_data)) as [->|Hne].
      * rewrite lookup_delete_eq. right. by exists form_data.
      * rewrite lookup_delete_ne by done. by rewrite Hk.
    + by rewrite Hk.
  - unfold step. simpl. rewrite lookup_empty. by left.
Qed.

Lemma run_preserves_invariant (evs : list Event) (w : World) :
  store_invariant SYSTEM_MESSAGE w →
  store_invariant SYSTEM_MESSAGE (server_run w evs).
Proof.
  revert w. induction evs as [|ev evs IH]; intros w Hinv; [done|].
  simpl. apply IH. by apply step_preserves_invariant.
Qed.

(** Every state the server can reach from start-up satisfies the invariant. *)
Corollary reachable_invariant (evs : list Event) :
  store_invariant SYSTEM_MESSAGE (server_run initial_world evs).
Proof. apply run_preserves_invariant, map_Forall_empty. Qed.

Lemma voice_frame (form_data : FormData) (w : World) (k : CallSid) :
  k ≠ form_call_sid form_data →
  conversation_sessions (voice form_data w).2 !! k = conversation_sessions w !! k.
Proof.
  intros Hne.
  destruct (voice_cases form_data w) as (reply & w' & -> & Hw'). simpl.
  destruct (conversation_sessions w !! form_call_sid form_data).
  - destruct Hw' as [->|(speech & answer & ->)]; [done|].
    by rewrite lookup_insert_ne.
  - rewrite Hw'. by rewrite lookup_insert_ne.
Qed.

Lemma recording_status_frame (form_data : FormData) (w : World) (k : CallSid) :
  k ≠ form_call_sid form_data →
  conversation_sessions (handle_recording_status form_data w).2 !! k =
    conversation_sessions w !! k.
Proof.
  intros Hne. rewrite recording_status_eq. simpl.
  case_bool_decide; [|done]. simpl. by rewrite lookup_delete_ne.
Qed.

(** *** Main results *)



(** C3. For a call identifier that has a session, a voice-handler invocation
    whose speech field is absent or empty returns the fixed re-prompt and
    leaves the whole state as it was: the transcript is unchanged and no
    request is sent to the inference provider. *)
Theorem voice_without_speech_reprompts
    (form_data : FormData) (session : Session) (w : World) :
  conversation_sessions w !! form_call_sid form_data = Some session →
  form_speech form_data = None ∨ form_speech form_data = Some [] →
  voice form_data w = (Returns (voice_response REPROMPT), w)
  ∧ spoken (voice_response REPROMPT) = [REPROMPT].
Proof.
  intros Hs Hsp. split; [|done].
  apply (voice_no_speech _ _ _ Hs). by destruct Hsp as [-> | ->].
Qed.


(** C5. The inference adapter always returns and never raises.  For a
    session with any transcript it sends one request; when the provider
    answers and the answer has a first choice with text, the adapter returns
    that text without its leading and trailing whitespace; when the provider
    raises, or the answer cannot be read, it returns the fixed fallback
    string.  Without a session it returns the fallback as well. *)
Theorem adapter_returns_reply_or_fallback (call_sid : CallSid) (w : World) :
  ∃ reply w',
    generate call_sid w = (Returns reply, w')
    ∧ match conversation_sessions w !! call_sid with
      | Some session =>
          let req := completion_request (conversation_history session) in
          w' = log_together_request req w
          ∧ match together_create (together_requests w) req with
            | ApiOk response =>
                match first_choice_content response with
                | Some text => reply = strip text ∧ trimmed_of text reply
                | None => reply = FALLBACK
                end
            | ApiRaise _ => reply = FALLBACK
            end
      | None => reply = FALLBACK ∧ w' = w
      end.
Proof.
  destruct (conversation_sessions w !! call_sid) as [session|] eqn:Hs.
  - eexists _, _. split; [exact (generate_present _ _ _ Hs)|].
    split; [done|]. unfold adapter_reply.
    destruct (together_create _ _) as [response|e]; [|done].
    destruct (first_choice_content response) as [text|]; [|done].
    split; [done|]. apply strip_trimmed.
  - eexists _, _. split; [exact (generate_absent _ _ Hs)|]. done.
Qed.

(** C6. Every operation of the server preserves the store invariant (each
    session's transcript opens with the system message carrying the loaded
    prompt and has no other system message), and touches a transcript only by
    appending: a session present before the operation is afterwards either
    present with a transcript that extends the old one, or gone, which only
    a completed recording for that identifier or the shutdown hook does. *)
Theorem operations_keep_transcripts_append_only (ev : Event) (w : World) :
  store_invariant SYSTEM_MESSAGE w →
  store_invariant SYSTEM_MESSAGE (server_step w ev)
  ∧ ∀ k session,
      conversation_sessions w !! k = Some session →
      match conversation_sessions (server_step w ev) !! k with
      | Some session' =>
          conversation_history session `prefix_of` conversation_history session'
      | None => removes ev k
      end.
Proof.
  intros Hinv. split.
  - by apply step_preserves_invariant.
  - intros k session. apply step_append_only.
Qed.


(** C8. A [POST /make-call] request with the empty string as destination
    number returns the object holding only the error "Phone number is
    required" and leaves the state as it was, so no request goes to the
    telephony provider. *)
Theorem make_call_requires_phone_number (w : World) :
  originate (mkCallRequest []) w = (Returns PHONE_REQUIRED, w)
  ∧ twilio_requests (originate (mkCallRequest []) w).2 = twilio_requests w.
Proof. by rewrite make_call_eq. Qed.

(** C10. A voice-handler or recording-status invocation changes at most the
    store entry of the call identifier carried by its own request: for any
    other identifier, whether it has a session and what its transcript holds
    are the same after the invocation as before. *)
Theorem handlers_touch_only_their_own_session
    (form_data : FormData) (k : CallSid) (w : World) :
  k ≠ form_call_sid form_data →
  conversation_sessions (voice form_data w).2 !! k = conversation_sessions w !! k
  ∧ conversation_sessions (handle_recording_status form_data w).2 !! k =
      conversation_sessions w !! k.
Proof.
  intros Hne. split.
  - by apply voice_frame.
  - by apply recording_status_frame.
Qed.

End Properties.


(** ** Further properties *)

(** *** Whitespace trimming, continued *)

Lemma is_trimmed_iff (s : pystr) :
  is_trimmed s = true
  ↔ (py_isspace <$> head s) ≠ Some true ∧ (py_isspace <$> last s) ≠ Some true.
Proof.
  unfold is_trimmed. rewrite andb_true_iff, !negb_true_iff.
  destruct (head s) as [c|], (last s) as [c'|]; simpl;
    repeat match goal with |- context [py_isspace ?x] => destruct (py_isspace x) end;
    intuition congruence.
Qed.

Lemma strip_is_trimmed (t : pystr) : is_trimmed (strip t) = true.
Proof.
  apply is_trimmed_iff. destruct (strip_trimmed t) as (l & l' & _ & _ & _ & Hh & Hl).
  by split.
Qed.

Lemma lstrip_fixed (s : pystr) :
  (py_isspace <$> head s) ≠ Some true → lstrip s = s.
Proof.
  destruct s as [|c s]; simpl; [done|]. by destruct (py_isspace c).
Qed.

Lemma rstrip_fixed (s : pystr) :
  (py_isspace <$> last s) ≠ Some true → rstrip s = s.
Proof.
  intros Hl. unfold rstrip. rewrite lstrip_fixed.
  - apply reverse_involutive.
  - by rewrite head_reverse.
Qed.

Lemma strip_fixed (s : pystr) : is_trimmed s = true → strip s = s.
Proof.
  intros [Hh Hl]%is_trimmed_iff. unfold strip.
  rewrite (lstrip_fixed s Hh). by apply rstrip_fixed.
Qed.



Lemma adapter_reply_is_trimmed (r : ApiResult ChatCompletion) :
  is_trimmed (adapter_reply r) = true.
Proof.
  unfold adapter_reply. destruct r as [response|e]; [|reflexivity].
  destruct (first_choice_content response) as [text|]; [|reflexivity].
  apply strip_is_trimmed.
Qed.

(** *** Module initialisation *)

Lemma stdout_encodable_could_not_find (path : pystr) :
  stdout_encodable (lit "Could not find file: " ++ path) = stdout_encodable path.
Proof. unfold stdout_encodable. by rewrite forallb_app. Qed.

(** X1. What [load_prompt] does follows what reading the prompt file does.
    When the file is read, it returns the text without the surrounding
    whitespace, a string that a further [strip()] leaves as it is.  When
    there is no such file, it raises [FileNotFoundError] for the path it
    tried, or [UnicodeEncodeError] when that path cannot be printed.  Any
    other exception of [open] or [read] is passed on as it is: only
    [FileNotFoundError] is caught, and it is raised again. *)
Theorem load_prompt_strips_or_raises
    (module_dir : pystr) (read_text : pystr → ReadOutcome) (file_name : pystr) :
  let path := prompt_path module_dir file_name in
  match read_text path with
  | ReadText text =>
      ∃ prompt, load_prompt module_dir read_text file_name = inr prompt
                ∧ trimmed_of text prompt
                ∧ strip prompt = prompt
  | NoSuchFile =>
      load_prompt module_dir read_text file_name =
        inl (if stdout_encodable path then FileNotFoundError path
             else StartupUnicodeEncodeError)
  | ReadRaises class_name description =>
      load_prompt module_dir read_text file_name =
        inl (LibraryError class_name description)
  end.
Proof.
  intros path. unfold load_prompt. fold path.
  destruct (read_text path) as [text| |class_name description]; [|..|done].
  - exists (strip text). split_and!; [done | apply strip_trimmed |].
    apply strip_fixed, strip_is_trimmed.
  - rewrite stdout_encodable_could_not_find.
    by destruct (stdout_encodable path).
Qed.

(** X2. For a module directory that is not empty and does not end with the
    separator, the prompt is looked up at
    [<module_dir>/prompts/<file_name>.txt]; but a file name that starts with
    the separator replaces the whole path, so the module directory is
    ignored. *)
Theorem prompt_path_layout (module_dir file_name : pystr) :
  module_dir ≠ [] →
  ends_with_sep module_dir = false →
  prompt_path module_dir file_name =
    if starts_with_sep file_name then file_name ++ lit ".txt"
    else module_dir ++ lit "/prompts/" ++ file_name ++ lit ".txt".
Proof.
  intros Hne Hend. unfold prompt_path, path_join. simpl.
  unfold path_join_step at 2. simpl.
  destruct module_dir as [|c d]; [done|]. simpl. rewrite Hend. simpl.
  unfold path_join_step.
  assert (starts_with_sep (file_name ++ lit ".txt") = starts_with_sep file_name)
    as -> by (by destruct file_name).
  destruct (starts_with_sep file_name); [done|].
  assert (ends_with_sep (c :: d ++ SEP :: lit "prompts") = false) as ->.
  { unfold ends_with_sep.
    change (c :: d ++ SEP :: lit "prompts")
      with ((c :: d) ++ SEP :: lit "prompts").
    by rewrite last_app. }
  simpl. by rewrite <- !app_assoc.
Qed.

(** X3. With the imports, [load_dotenv()] and [FastAPI()] done, loading the
    module succeeds exactly when [PORT] is unset or accepted by [int()], the
    prompt file is read, the Together key and the three Twilio settings are
    all set and non-empty, and the Together client's constructor does not
    raise.  The configuration then holds the environment's values, port 8000
    when [PORT] is unset, and the stripped prompt.  [NGROK_URL] is copied
    but not required. *)
Theorem startup_succeeds_iff
    (module_dir : pystr) (read_text : pystr → ReadOutcome)
    (py_int : pystr → option Z)
    (together_init : option pystr → option (pystr * pystr))
    (env : gmap pystr pystr) (cfg : Config) :
  startup module_dir read_text py_int together_init env = inr cfg
  ↔ match env !! lit "PORT" with
    | Some s => py_int s = Some (cfg_PORT cfg)
    | None => cfg_PORT cfg = 8000%Z
    end
    ∧ (∃ text,
         read_text (prompt_path module_dir (lit "system_prompt_llama"))
           = ReadText text
         ∧ cfg_SYSTEM_MESSAGE cfg = strip text)
    ∧ truthy_optional (env !! lit "TOGETHER_API_KEY") = true
    ∧ truthy_optional (env !! lit "TWILIO_ACCOUNT_SID") = true
    ∧ truthy_optional (env !! lit "TWILIO_AUTH_TOKEN") = true
    ∧ truthy_optional (env !! lit "TWILIO_PHONE_NUMBER") = true
    ∧ together_init (env !! lit "TOGETHER_API_KEY") = None
    ∧ cfg_TOGETHER_API_KEY cfg = env !! lit "TOGETHER_API_KEY"
    ∧ cfg_TWILIO_ACCOUNT_SID cfg = env !! lit "TWILIO_ACCOUNT_SID"
    ∧ cfg_TWILIO_AUTH_TOKEN cfg = env !! lit "TWILIO_AUTH_TOKEN"
    ∧ cfg_TWILIO_PHONE_NUMBER cfg = env !! lit "TWILIO_PHONE_NUMBER"
    ∧ cfg_NGROK_URL cfg = env !! lit "NGROK_URL".
Proof.
  unfold startup, load_prompt. split.
  - destruct (env !! lit "PORT") as [s|];
      [destruct (py_int s) as [port|] eqn:Hport; [|done]|];
      (destruct (read_text _) as [text| |class_name description];
         [|by destruct (stdout_encodable _)|done]);
      (destruct (truthy_optional (env !! lit "TOGETHER_API_KEY")); [|done]);
      (destruct (truthy_optional (env !! lit "TWILIO_ACCOUNT_SID")); [|done]);
      (destruct (truthy_optional (env !! lit "TWILIO_AUTH_TOKEN")); [|done]);
      (destruct (truthy_optional (env !! lit "TWILIO_PHONE_NUMBER")); [|done]);
      simpl;
      (destruct (together_init _) as [[class_name description]|]; [done|]);
      intros [= <-]; simpl; split_and!; eauto.
  - destruct cfg as [key account token phone ngrok port prompt]. simpl.
    intros (Hport & (text & -> & ->) & -> & -> & -> & -> & -> & -> & -> & -> & -> & ->).
    simpl. destruct (env !! lit "PORT") as [s|]; [by rewrite Hport | by subst port].
Qed.

(** X4. [NGROK_URL] takes no part in start-up: if the module loads, it loads
    as well with the variable removed, and the server then tells the
    telephony provider to call back at "None/voice-handler" and
    "None/recording-status". *)
Theorem startup_does_not_require_ngrok_url
    (module_dir : pystr) (read_text : pystr → ReadOutcome)
    (py_int : pystr → option Z)
    (together_init : option pystr → option (pystr * pystr))
    (env : gmap pystr pystr) (cfg : Config) :
  startup module_dir read_text py_int together_init env = inr cfg →
  ∃ cfg',
    startup module_dir read_text py_int together_init
      (delete (lit "NGROK_URL") env) = inr cfg'
    ∧ cfg_NGROK_URL cfg' = None
    ∧ ∀ number,
        let req :=
          origination_request (cfg_TWILIO_ACCOUNT_SID cfg')
            (cfg_TWILIO_AUTH_TOKEN cfg') (cfg_TWILIO_PHONE_NUMBER cfg')
            (cfg_NGROK_URL cfg') number in
        url req = lit "None/voice-handler"
        ∧ recording_status_callback req = lit "None/recording-status".
Proof.
  intros Hok.
  exists {| cfg_TOGETHER_API_KEY := cfg_TOGETHER_API_KEY cfg;
            cfg_TWILIO_ACCOUNT_SID := cfg_TWILIO_ACCOUNT_SID cfg;
            cfg_TWILIO_AUTH_TOKEN := cfg_TWILIO_AUTH_TOKEN cfg;
            cfg_TWILIO_PHONE_NUMBER := cfg_TWILIO_PHONE_NUMBER cfg;
            cfg_NGROK_URL := None;
            cfg_PORT := cfg_PORT cfg;
            cfg_SYSTEM_MESSAGE := cfg_SYSTEM_MESSAGE cfg |}.
  split_and!; [|done|done].
  unfold startup, load_prompt in *.
  rewrite lookup_delete_eq, !lookup_delete_ne by discriminate.
  destruct (env !! lit "PORT") as [s|];
    [destruct (py_int s) as [port|]; [|done]|];
    (destruct (read_text _) as [text| |class_name description];
       [|by destruct (stdout_encodable _)|done]);
    (destruct (truthy_optional (env !! lit "TOGETHER_API_KEY")); [|done]);
    (destruct (truthy_optional (env !! lit "TWILIO_ACCOUNT_SID")); [|done]);
    (destruct (truthy_optional (env !! lit "TWILIO_AUTH_TOKEN")); [|done]);
    (destruct (truthy_optional (env !! lit "TWILIO_PHONE_NUMBER")); [|done]);
    simpl in *;
    (destruct (together_init _) as [[class_name description]|]; [done|]);
    by injection Hok as <-.
Qed.

(** X5. With the imports, [load_dotenv()] and [FastAPI()] done, every
    start-up failure has its cause, in the order the module runs: a [PORT]
    value that [int()] rejects; else a prompt file that is missing (reported
    as [FileNotFoundError], or as [UnicodeEncodeError] when its path cannot
    be printed) or whose reading raises, whatever the credentials; else the
    missing or empty Together key; else a missing or empty Twilio setting;
    else, with every setting present, the exception of the Together
    client's constructor. *)
Theorem startup_failure_names_its_cause
    (module_dir : pystr) (read_text : pystr → ReadOutcome)
    (py_int : pystr → option Z)
    (together_init : option pystr → option (pystr * pystr))
    (env : gmap pystr pystr) :
  let port_ok :=
    match env !! lit "PORT" with
    | Some s => is_Some (py_int s)
    | None => True
    end in
  let path := prompt_path module_dir (lit "system_prompt_llama") in
  let readable := ∃ text, read_text path = ReadText text in
  let key := env !! lit "TOGETHER_API_KEY" in
  let twilio_ok :=
    truthy_optional (env !! lit "TWILIO_ACCOUNT_SID")
    && truthy_optional (env !! lit "TWILIO_AUTH_TOKEN")
    && truthy_optional (env !! lit "TWILIO_PHONE_NUMBER") in
  match startup module_dir read_text py_int together_init env with
  | inl (InvalidIntLiteral s) => env !! lit "PORT" = Some s ∧ py_int s = None
  | inl (FileNotFoundError p) =>
      port_ok ∧ p = path ∧ read_text path = NoSuchFile
      ∧ stdout_encodable path = true
  | inl StartupUnicodeEncodeError =>
      port_ok ∧ read_text path = NoSuchFile ∧ stdout_encodable path = false
  | inl (ValueError msg) =>
      port_ok ∧ readable
      ∧ (msg = lit "Missing Together API key. Please set it in the .env file."
         ∧ truthy_optional key = false
         ∨ msg = lit "Missing Twilio configuration. Please set it in the .env file."
           ∧ truthy_optional key = true
           ∧ twilio_ok = false)
  | inl (LibraryError class_name description) =>
      port_ok
      ∧ (read_text path = ReadRaises class_name description
         ∨ readable ∧ truthy_optional key = true ∧ twilio_ok = true
           ∧ together_init key = Some (class_name, description))
  | inr _ => True
  end.
Proof.
  intros port_ok path readable key twilio_ok.
  unfold startup, load_prompt. fold path key.
  subst port_ok readable twilio_ok.
  rewrite stdout_encodable_could_not_find.
  destruct (env !! lit "PORT") as [s|];
    [destruct (py_int s) as [port|] eqn:Hport; [|done]|];
    (destruct (read_text path) as [text| |class_name description];
       [|destruct (stdout_encodable path) eqn:Henc; split_and!; by eauto
        |split_and!; by eauto]);
    (destruct (truthy_optional key); simpl; [|split_and!; by eauto]);
    (destruct (truthy_optional (env !! lit "TWILIO_ACCOUNT_SID")); simpl;
       [|split_and!; by eauto 10]);
    (destruct (truthy_optional (env !! lit "TWILIO_AUTH_TOKEN")); simpl;
       [|split_and!; by eauto 10]);
    (destruct (truthy_optional (env !! lit "TWILIO_PHONE_NUMBER")); simpl;
       [|split_and!; by eauto 10]);
    (destruct (together_init key) as [[class_name description]|];
       [split_and!; by eauto 10|done]).
Qed.

(** *** The handlers and the two providers *)

Section ServerProperties.

Context (SYSTEM_MESSAGE : pystr).
Context (together_create : list ChatRequest → ChatRequest → ApiResult ChatCompletion).
Context (TWILIO_ACCOUNT_SID TWILIO_AUTH_TOKEN TWILIO_PHONE_NUMBER NGROK_URL : option pystr).
Context (twilio_calls_create : list CallCreate → CallCreate → ApiResult CallInstance).
Context (str_exn : exn → pystr).

Local Abbreviation voice := (handle_voice_interaction SYSTEM_MESSAGE together_create).
Local Abbreviation generate := (generate_llama_response together_create).
Local Abbreviation originate :=
  (make_call TWILIO_ACCOUNT_SID TWILIO_AUTH_TOKEN TWILIO_PHONE_NUMBER NGROK_URL
     twilio_calls_create str_exn).
Local Abbreviation origination :=
  (origination_request TWILIO_ACCOUNT_SID TWILIO_AUTH_TOKEN TWILIO_PHONE_NUMBER
     NGROK_URL).
Local Abbreviation server_dispatch :=
  (dispatch TWILIO_ACCOUNT_SID TWILIO_AUTH_TOKEN TWILIO_PHONE_NUMBER NGROK_URL
     SYSTEM_MESSAGE together_create twilio_calls_create str_exn).
Local Abbreviation server_step :=
  (step TWILIO_ACCOUNT_SID TWILIO_AUTH_TOKEN TWILIO_PHONE_NUMBER NGROK_URL
     SYSTEM_MESSAGE together_create twilio_calls_create str_exn).
Local Abbreviation server_run :=
  (run TWILIO_ACCOUNT_SID TWILIO_AUTH_TOKEN TWILIO_PHONE_NUMBER NGROK_URL
     SYSTEM_MESSAGE together_create twilio_calls_create str_exn).

(** The voice handler's outcome and state in one equation. *)
Lemma voice_eq (form_data : FormData) (w : World) :
  let call_sid := form_call_sid form_data in
  let speech := default [] (form_speech form_data) in
  voice form_data w =
    match conversation_sessions w !! call_sid with
    | None =>
        (Returns (voice_response GREETING),
         with_sessions
           <[call_sid := mkSession [system_message SYSTEM_MESSAGE]]> w)
    | Some session =>
        if truthy speech then
          let asked := conversation_history session ++ [user_message speech] in
          let req := completion_request asked in
          let reply := adapter_reply (together_create (together_requests w) req) in
          (voice_outcome reply,
           log_together_request req
             (with_sessions
                <[call_sid := mkSession (asked ++ [assistant_message reply])]> w))
        else (Returns (voice_response REPROMPT), w)
    end.
Proof.
  intros call_sid speech.
  destruct (conversation_sessions w !! call_sid) as [session|] eqn:Hs.
  - destruct (truthy speech) eqn:Hsp.
    + exact (voice_turn _ _ _ _ _ Hs Hsp).
    + exact (voice_no_speech _ _ _ _ _ Hs Hsp).
  - exact (voice_new _ _ _ _ Hs).
Qed.



Lemma step_together_log (ev : Event) (w : World) :
  together_requests (server_step w ev) =
    together_requests w ++ inference_request_of w ev.
Proof.
  destruct ev as [|request|form_data|form_data|]; unfold step; simpl;
    rewrite ?app_nil_r; try done.
  - unfold bind. rewrite make_call_eq.
    destruct (to_phone_number request); simpl; [done|].
    by destruct (twilio_calls_create _ _).
  - unfold bind. rewrite voice_eq.
    destruct (conversation_sessions w !! _); simpl; [|by rewrite app_nil_r].
    destruct (truthy _); simpl;
      [by destruct (voice_outcome _)|by rewrite app_nil_r].
  - unfold bind. rewrite recording_status_eq. simpl.
    by case_bool_decide.
Qed.

Lemma step_twilio_log (ev : Event) (w : World) :
  twilio_requests (server_step w ev) =
    twilio_requests w ++
      match ev with
      | EvMakeCall request =>
          if truthy (to_phone_number request)
          then [origination (to_phone_number request)]
          else []
      | _ => []
      end.
Proof.
  destruct ev as [|request|form_data|form_data|]; unfold step; simpl;
    rewrite ?app_nil_r; try done.
  - unfold bind. rewrite make_call_eq.
    destruct (to_phone_number request); simpl; [by rewrite app_nil_r|].
    by destruct (twilio_calls_create _ _).
  - unfold bind. rewrite voice_eq.
    destruct (conversation_sessions w !! _); simpl; [|done].
    destruct (truthy _); [|done]. simpl. by destruct (voice_outcome _).
  - unfold bind. rewrite recording_status_eq. simpl.
    by case_bool_decide.
Qed.



(** X10. The make-call endpoint never touches the session store and never
    contacts the inference provider, whatever the telephony provider
    answers: placing a call creates no session. *)
Theorem make_call_keeps_store (request : CallRequest) (w : World) :
  conversation_sessions (originate request w).2 = conversation_sessions w
  ∧ together_requests (originate request w).2 = together_requests w.
Proof.
  split; rewrite make_call_eq;
    (destruct (to_phone_number request); [done|]);
    by destruct (twilio_calls_create _ _).
Qed.


(** *** Transcripts and requests in reachable states *)

Lemma dialogue_pairs (ext turns : list Message) :
  (dialogue turns = true → dialogue (turns ++ ext) = dialogue ext)
  ∧ (∀ m, dialogue (m :: turns) = true →
          dialogue ((m :: turns) ++ ext) = dialogue ext).
Proof.
  induction turns as [|a turns [IH1 IH2]].
  - split; [done|]. intros m. simpl. done.
  - split; [apply IH2|].
    intros m. simpl. intros [Hpair Hrest]%andb_true_iff.
    rewrite Hpair. simpl. by apply IH1.
Qed.

Lemma dialogue_app (turns ext : list Message) :
  dialogue turns = true → dialogue (turns ++ ext) = dialogue ext.
Proof. apply dialogue_pairs. Qed.

Lemma dialogue_even_pairs (turns : list Message) :
  (dialogue turns = true → Nat.even (length turns) = true)
  ∧ (∀ m, dialogue (m :: turns) = true → Nat.even (length (m :: turns)) = true).
Proof.
  induction turns as [|a turns [IH1 IH2]].
  - split; [done|]. intros m. simpl. done.
  - split; [apply IH2|].
    intros m. simpl. intros [_ Hrest]%andb_true_iff. by apply IH1.
Qed.

Lemma dialogue_turn (speech reply : pystr) :
  truthy speech = true → is_trimmed reply = true →
  dialogue [user_message speech; assistant_message reply] = true.
Proof. intros Hs Hr. simpl. by rewrite Hs, Hr. Qed.

Lemma transcript_dialogue_odd (h : list Message) :
  transcript_dialogue SYSTEM_MESSAGE h → Nat.odd (length h) = true.
Proof.
  intros (turns & -> & Hd). simpl length. rewrite Nat.odd_succ.
  by apply dialogue_even_pairs.
Qed.

Lemma step_preserves_dialogue (ev : Event) (w : World) :
  store_dialogue SYSTEM_MESSAGE w →
  store_dialogue SYSTEM_MESSAGE (server_step w ev).
Proof.
  unfold store_dialogue. intros Hinv.
  destruct ev as [|request|form_data|form_data|].
  - exact Hinv.
  - by rewrite step_make_call.
  - rewrite step_voice, voice_eq.
    destruct (conversation_sessions w !! form_call_sid form_data)
      as [session|] eqn:Hs.
    + destruct (truthy _) eqn:Hsp; [|done]. simpl.
      apply map_Forall_insert_2; [|done]. simpl.
      destruct (Hinv _ _ Hs) as (turns & -> & Hd).
      eexists. split; [by rewrite <- app_assoc, <- app_comm_cons|].
      rewrite (dialogue_app _ _ Hd).
      apply dialogue_turn; [done | apply adapter_reply_is_trimmed].
    + simpl. apply map_Forall_insert_2; [|done]. by exists [].
  - rewrite step_recording_status. case_bool_decide; [|done].
    simpl. by apply map_Forall_delete.
  - apply map_Forall_empty.
Qed.

Lemma step_preserves_inference_log (ev : Event) (w : World) :
  store_dialogue SYSTEM_MESSAGE w →
  inference_log_well_formed SYSTEM_MESSAGE w →
  inference_log_well_formed SYSTEM_MESSAGE (server_step w ev).
Proof.
  unfold inference_log_well_formed. intros Hstore Hlog.
  rewrite step_together_log. apply Forall_app. split; [done|].
  destruct ev as [|request|form_data|form_data|]; simpl; try done.
  destruct (conversation_sessions w !! form_call_sid form_data)
    as [session|] eqn:Hs; [|done].
  destruct (truthy _) eqn:Hsp; [|done].
  apply Forall_singleton. split; [done|].
  destruct (Hstore _ _ Hs) as (turns & Hh & Hd).
  exists turns, (default [] (form_speech form_data)). simpl.
  split_and!; [by rewrite Hh | done |].
  by destruct (default [] (form_speech form_data)).
Qed.

Lemma step_preserves_twilio_log (ev : Event) (w : World) :
  Forall (λ req, req = origination (to req) ∧ to req ≠ []) (twilio_requests w) →
  Forall (λ req, req = origination (to req) ∧ to req ≠ [])
    (twilio_requests (server_step w ev)).
Proof.
  intros Hlog. rewrite step_twilio_log. apply Forall_app. split; [done|].
  destruct ev as [|request|form_data|form_data|]; try done.
  destruct (to_phone_number request) as [|c number] eqn:Hn; [done|].
  simpl. apply Forall_singleton. simpl. done.
Qed.

Lemma run_cons (w : World) (ev : Event) (evs : list Event) :
  server_run w (ev :: evs) = server_run (server_step w ev) evs.
Proof. done. Qed.

Lemma run_snoc (w : World) (evs : list Event) (ev : Event) :
  server_run w (evs ++ [ev]) = server_step (server_run w evs) ev.
Proof. unfold run. by rewrite fold_left_app. Qed.

Lemma reachable_dialogue (evs : list Event) :
  store_dialogue SYSTEM_MESSAGE (server_run initial_world evs).
Proof.
  induction evs as [|ev evs IH] using rev_ind; [apply map_Forall_empty|].
  rewrite run_snoc. by apply step_preserves_dialogue.
Qed.

(** X12. In every state the server can reach from start-up, each stored
    transcript is the system message with the loaded prompt followed by
    complete turns, a user message with non-empty text and then an assistant
    message whose text has no surrounding whitespace; so its length is
    odd. *)
Theorem reachable_transcripts_alternate
    (evs : list Event) (k : CallSid) (session : Session) :
  conversation_sessions (server_run initial_world evs) !! k = Some session →
  transcript_dialogue SYSTEM_MESSAGE (conversation_history session)
  ∧ Nat.odd (length (conversation_history session)) = true.
Proof.
  intros Hk. pose proof (reachable_dialogue evs _ _ Hk) as Hd.
  split; [done|]. by apply transcript_dialogue_odd.
Qed.

(** X13. Every request the server ever sends to the inference provider
    carries the fixed model and sampling parameters and a transcript made of
    the system prompt, complete earlier turns, and last the caller's new,
    non-empty utterance. *)
Theorem reachable_inference_requests_well_formed (evs : list Event) :
  Forall (request_well_formed SYSTEM_MESSAGE)
    (together_requests (server_run initial_world evs)).
Proof.
  induction evs as [|ev evs IH] using rev_ind; [by apply Forall_nil|].
  rewrite run_snoc. apply step_preserves_inference_log; [|done].
  apply reachable_dialogue.
Qed.

(** X14. Every origination request the server ever sends to the telephony
    provider is for a non-empty destination number, with recording on and
    the two callbacks and credentials of the configuration. *)
Theorem reachable_origination_requests_well_formed (evs : list Event) :
  Forall (λ req, req = origination (to req) ∧ to req ≠ [] ∧ record req = true)
    (twilio_requests (server_run initial_world evs)).
Proof.
  assert (Forall (λ req, req = origination (to req) ∧ to req ≠ [])
            (twilio_requests (server_run initial_world evs))) as Hlog.
  { induction evs as [|ev evs IH] using rev_ind; [by apply Forall_nil|].
    rewrite run_snoc. by apply step_preserves_twilio_log. }
  eapply Forall_impl; [exact Hlog|].
  intros req [Hreq Hto]. split_and!; [done..|]. by rewrite Hreq.
Qed.

(** *** The adapter's reply and multi-turn conversations *)

(** X15. Whatever the provider does, the adapter's reply neither starts nor
    ends with whitespace, and the adapter changes neither the session store
    nor the log of telephony requests. *)
Theorem adapter_reply_trimmed_store_untouched (call_sid : CallSid) (w : World) :
  ∃ reply w',
    generate call_sid w = (Returns reply, w')
    ∧ is_trimmed reply = true
    ∧ conversation_sessions w' = conversation_sessions w
    ∧ twilio_requests w' = twilio_requests w.
Proof.
  destruct (conversation_sessions w !! call_sid) as [session|] eqn:Hs.
  - eexists _, _. split; [exact (generate_present _ _ _ _ Hs)|].
    split_and!; [apply adapter_reply_is_trimmed | done | done].
  - eexists _, _. split; [exact (generate_absent _ _ _ Hs)|]. done.
Qed.



(** X18. Sessions are never dropped on their own: over any run of events
    with no shutdown and no recording status "completed", a session that
    exists at the start still exists at the end, and its transcript has only
    been extended. *)
Theorem sessions_persist_without_removal
    (evs : list Event) (k : CallSid) (session : Session) (w : World) :
  conversation_sessions w !! k = Some session →
  Forall (λ ev, is_removal ev = false) evs →
  ∃ session',
    conversation_sessions (server_run w evs) !! k = Some session'
    ∧ conversation_history session `prefix_of` conversation_history session'.
Proof.
  intros Hs Hevs. revert w session Hs.
  induction Hevs as [|ev evs Hev _ IH]; intros w session Hs.
  - by exists session.
  - rewrite run_cons.
    pose proof (step_append_only SYSTEM_MESSAGE together_create
                  TWILIO_ACCOUNT_SID TWILIO_AUTH_TOKEN TWILIO_PHONE_NUMBER
                  NGROK_URL twilio_calls_create str_exn ev w k session Hs) as Hstep.
    destruct (conversation_sessions (server_step w ev) !! k)
      as [session1|] eqn:H1.
    + destruct (IH _ _ H1) as (session' & Hlook & Hpre).
      exists session'. split; [done|]. by etrans.
    + destruct Hstep as [-> | (form_data & -> & Hc & _)]; [done|].
      simpl in Hev. by rewrite bool_decide_eq_true_2 in Hev.
Qed.

End ServerProperties.

(** *** Worked examples for the further properties *)

Section FurtherExamples.

Import Fixtures.

Example startup_example :
  startup MODULE_DIR prompt_files int_of_literal client_built environment = inr configuration.
Proof. vm_compute. reflexivity. Qed.

Example startup_without_together_key :
  startup MODULE_DIR prompt_files int_of_literal client_built
    (delete (lit "TOGETHER_API_KEY") environment)
  = inl (ValueError
           (lit "Missing Together API key. Please set it in the .env file.")).
Proof. vm_compute. reflexivity. Qed.

Example startup_with_bad_port :
  startup MODULE_DIR prompt_files int_of_literal client_built
    (<[lit "PORT" := lit "eighty"]> environment)
  = inl (InvalidIntLiteral (lit "eighty")).
Proof. vm_compute. reflexivity. Qed.

Example startup_with_undecodable_prompt :
  startup MODULE_DIR undecodable_files int_of_literal client_built environment
  = inl (LibraryError (lit "UnicodeDecodeError")
           (lit "'utf-8' codec can't decode byte 0xff in position 0")).
Proof. vm_compute. reflexivity. Qed.

Example startup_with_failing_client :
  startup MODULE_DIR prompt_files int_of_literal client_rejects_proxy environment
  = inl (LibraryError (lit "ValueError") (lit "Unknown scheme for proxy URL")).
Proof. vm_compute. reflexivity. Qed.

Lemma prompt_path_layout_witness :
  MODULE_DIR ≠ []
  ∧ ends_with_sep MODULE_DIR = false
  ∧ prompt_path MODULE_DIR (lit "system_prompt_llama") = PROMPT_FILE.
Proof.
  assert (MODULE_DIR ≠ []) as Hne by discriminate.
  assert (ends_with_sep MODULE_DIR = false) as Hend by reflexivity.
  split_and!; [exact Hne | exact Hend |].
  exact (prompt_path_layout MODULE_DIR (lit "system_prompt_llama") Hne Hend).
Defined.

Lemma startup_does_not_require_ngrok_url_witness :
  startup MODULE_DIR prompt_files int_of_literal client_built environment = inr configuration
  ∧ ∃ cfg',
      startup MODULE_DIR prompt_files int_of_literal client_built
        (delete (lit "NGROK_URL") environment) = inr cfg'
      ∧ cfg_NGROK_URL cfg' = None.
Proof.
  assert (startup MODULE_DIR prompt_files int_of_literal client_built environment
          = inr configuration) as Hok by (vm_compute; reflexivity).
  split; [exact Hok|].
  destruct (startup_does_not_require_ngrok_url MODULE_DIR prompt_files
              int_of_literal client_built environment configuration Hok)
    as (cfg' & Hstart & Hngrok & _).
  exists cfg'. split; [exact Hstart | exact Hngrok].
Defined.

Lemma reachable_transcripts_alternate_witness :
  conversation_sessions
    (serve initial_world [EvVoice form_first; EvVoice form_speech_turn])
    !! Some (lit "CA123")
  = Some (mkSession [system_message PROMPT; user_message (lit "I need help");
                     assistant_message HELPFUL_REPLY])
  ∧ transcript_dialogue PROMPT
      [system_message PROMPT; user_message (lit "I need help");
       assistant_message HELPFUL_REPLY].
Proof.
  assert (conversation_sessions
            (serve initial_world [EvVoice form_first; EvVoice form_speech_turn])
            !! Some (lit "CA123")
          = Some (mkSession [system_message PROMPT;
                             user_message (lit "I need help");
                             assistant_message HELPFUL_REPLY])) as Hs
    by (vm_compute; reflexivity).
  split; [exact Hs|].
  exact (proj1 (reachable_transcripts_alternate PROMPT helpful_together
                  ACCOUNT_SID AUTH_TOKEN PHONE_NUMBER BASE_URL accepting_twilio
                  describe _ _ _ Hs)).
Defined.



Lemma sessions_persist_without_removal_witness :
  conversation_sessions world_active !! Some (lit "CA123")
    = Some (mkSession [system_message PROMPT])
  ∧ Forall (λ ev, is_removal ev = false)
      [EvRecordingStatus form_in_progress;
       EvMakeCall (mkCallRequest (lit "+15550199"));
       EvVoice form_speech_turn]
  ∧ ∃ session',
      conversation_sessions
        (serve world_active
           [EvRecordingStatus form_in_progress;
            EvMakeCall (mkCallRequest (lit "+15550199"));
            EvVoice form_speech_turn])
        !! Some (lit "CA123") = Some session'
      ∧ [system_message PROMPT] `prefix_of` conversation_history session'.
Proof.
  assert (conversation_sessions world_active !! Some (lit "CA123")
            = Some (mkSession [system_message PROMPT])) as Hs by reflexivity.
  assert (Forall (λ ev, is_removal ev = false)
            [EvRecordingStatus form_in_progress;
             EvMakeCall (mkCallRequest (lit "+15550199"));
             EvVoice form_speech_turn]) as Hevs.
  { repeat (constructor; [reflexivity|]). constructor. }
  split_and!; [exact Hs | exact Hevs |].
  exact (sessions_persist_without_removal PROMPT helpful_together
           ACCOUNT_SID AUTH_TOKEN PHONE_NUMBER BASE_URL accepting_twilio describe
           _ _ _ world_active Hs Hevs).
Defined.

End FurtherExamples.

(** ** Worked examples *)

Section Examples.

Import Fixtures.

(** The scenario of call CA123: greeting, one turn, recording completed,
    then the identifier is new again. *)
Example scenario_first_event :
  transcript_of (serve initial_world [EvVoice form_first]) (Some (lit "CA123"))
  = Some [system_message PROMPT].
Proof. vm_compute. reflexivity. Qed.

Example scenario_turn :
  transcript_of (serve initial_world [EvVoice form_first; EvVoice form_speech_turn])
    (Some (lit "CA123"))
  = Some [system_message PROMPT; user_message (lit "I need help");
          assistant_message HELPFUL_REPLY].
Proof. vm_compute. reflexivity. Qed.

Example scenario_completed :
  conversation_sessions
    (serve initial_world
       [EvVoice form_first; EvVoice form_speech_turn;
        EvRecordingStatus form_completed])
  = ∅.
Proof. vm_compute. reflexivity. Qed.

Example scenario_new_again :
  conversation_sessions
    (serve initial_world
       [EvVoice form_first; EvVoice form_speech_turn;
        EvRecordingStatus form_completed; EvVoice form_speech_turn])
  = conversation_sessions (serve initial_world [EvVoice form_first]).
Proof. vm_compute. reflexivity. Qed.

Example scenario_in_progress_keeps_session :
  serve world_active [EvRecordingStatus form_in_progress] = world_active.
Proof. vm_compute. reflexivity. Qed.

Example adapter_unreadable_answer :
  (generate_llama_response unreadable_together (Some (lit "CA123")) world_active).1
  = Returns FALLBACK.
Proof. vm_compute. reflexivity. Qed.

Example make_call_rejected :
  (make_call ACCOUNT_SID AUTH_TOKEN PHONE_NUMBER BASE_URL rejecting_twilio
     describe (mkCallRequest (lit "+15550199")) initial_world).1
  = Returns [(lit "error", JStr (lit "invalid phone number"));
             (lit "status", JStr (lit "failed"))].
Proof. vm_compute. reflexivity. Qed.

Example make_call_accepted :
  (make_call ACCOUNT_SID AUTH_TOKEN PHONE_NUMBER BASE_URL accepting_twilio
     describe (mkCallRequest (lit "+15550199")) initial_world).1
  = Returns [(lit "call_sid", JStr (lit "CA123"));
             (lit "status", JStr (lit "success"))].
Proof. vm_compute. reflexivity. Qed.

Example strip_example :
  strip (lit "  Sure, I can help with that. " ++ [10]) = HELPFUL_REPLY.
Proof. vm_compute. reflexivity. Qed.



(** C2. At the failing input, an existing session, the speech "I need help"
    and a provider reply holding a lone surrogate, the handler appends the
    user message and the assistant message and then raises
    [UnicodeEncodeError] at the final [print]: no spoken response is
    returned. *)
Lemma voice_turn_raises_on_unencodable_reply :
  (handle_voice_interaction PROMPT surrogate_together form_speech_turn
     world_active).1 = Raises UnicodeEncodeError
  ∧ transcript_of
      (handle_voice_interaction PROMPT surrogate_together form_speech_turn
         world_active).2 (Some (lit "CA123"))
    = Some [system_message PROMPT; user_message (lit "I need help");
            assistant_message [55296]].
Proof. split; vm_compute; reflexivity. Qed.

Lemma voice_without_speech_reprompts_witness :
  conversation_sessions world_active !! form_call_sid form_empty_speech
    = Some (mkSession [system_message PROMPT])
  ∧ (form_speech form_empty_speech = None ∨ form_speech form_empty_speech = Some [])
  ∧ handle_voice_interaction PROMPT helpful_together form_empty_speech
      world_active = (Returns (voice_response REPROMPT), world_active).
Proof.
  assert (conversation_sessions world_active !! form_call_sid form_empty_speech
            = Some (mkSession [system_message PROMPT])) as Hs by reflexivity.
  assert (form_speech form_empty_speech = None
          ∨ form_speech form_empty_speech = Some []) as Hsp
    by (right; reflexivity).
  split_and!; [exact Hs | exact Hsp |].
  exact (proj1 (voice_without_speech_reprompts PROMPT helpful_together
                  form_empty_speech _ world_active Hs Hsp)).
Defined.


Lemma operations_keep_transcripts_append_only_witness :
  store_invariant PROMPT world_active
  ∧ store_invariant PROMPT (serve world_active [EvVoice form_speech_turn])
  ∧ ∀ k session,
      conversation_sessions world_active !! k = Some session →
      match conversation_sessions (serve world_active [EvVoice form_speech_turn]) !! k with
      | Some session' =>
          conversation_history session `prefix_of` conversation_history session'
      | None => removes (EvVoice form_speech_turn) k
      end.
Proof.
  assert (store_invariant PROMPT world_active) as Hinv.
  { apply map_Forall_singleton. exists []. split; reflexivity. }
  split; [exact Hinv|].
  exact (operations_keep_transcripts_append_only PROMPT helpful_together
           ACCOUNT_SID AUTH_TOKEN PHONE_NUMBER BASE_URL accepting_twilio describe
           (EvVoice form_speech_turn) world_active Hinv).
Defined.



Lemma handlers_touch_only_their_own_session_witness :
  other_call ≠ form_call_sid form_completed_turn
  ∧ conversation_sessions world_two_calls !! other_call
    = Some (mkSession other_transcript)
  ∧ conversation_sessions
      (handle_voice_interaction PROMPT helpful_together form_completed_turn
         world_two_calls).2 !! Some (lit "CA123")
    = Some (mkSession [system_message PROMPT; user_message (lit "I need help");
                       assistant_message HELPFUL_REPLY])
  ∧ conversation_sessions
      (handle_voice_interaction PROMPT helpful_together form_completed_turn
         world_two_calls).2 !! other_call
    = Some (mkSession other_transcript)
  ∧ conversation_sessions
      (handle_recording_status form_completed_turn world_two_calls).2
      !! Some (lit "CA123")
    = None
  ∧ conversation_sessions
      (handle_recording_status form_completed_turn world_two_calls).2
      !! other_call
    = Some (mkSession other_transcript).
Proof.
  assert (other_call ≠ form_call_sid form_completed_turn) as Hne by discriminate.
  assert (conversation_sessions world_two_calls !! other_call
          = Some (mkSession other_transcript)) as Hother by reflexivity.
  destruct (handlers_touch_only_their_own_session PROMPT helpful_together
              form_completed_turn other_call world_two_calls Hne)
    as [Hvoice Hrecording].
  split_and!.
  - exact Hne.
  - exact Hother.
  - vm_compute. reflexivity.
  - exact (eq_trans Hvoice Hother).
  - vm_compute. reflexivity.
  - exact (eq_trans Hrecording Hother).
Defined.

End Examples.
